(** * Energy Insights Pro: the feature builder, alignment and prediction
      of [src/app.py], embedded in Rocq.

    The script builds a one-row [pandas.DataFrame] from five slider
    readings and a date and time, selects the columns the models were
    trained with, calls the two regression models and displays both
    estimates.

    - Python [float]s are binary64 floats and Python [int]s are [Z]; no
      arithmetic is done on the readings, they are only carried.
    - Python exceptions are values of [exc]; a piece of script returns,
      is stopped by [st.stop()], or raises.
    - The attributes of the app object are an explicit state; what the
      script puts on the page and each call of a model's [predict] are
      recorded, in order, in a trace.
    - The widgets are not modelled: [run] takes the values they return.
    - A loaded model is a function from the row to the array it predicts
      or the exception it raises; [Timestamp.weekday] follows the day-number
      arithmetic of the [datetime] module. *)

From Stdlib Require Import ZArith String List PrimFloat Lia.
From stdpp Require Import base option list.

Set Warnings "-inexact-float".

Open Scope string_scope.
Open Scope Z_scope.

(** ** Calendar: [datetime.date], [datetime.time] and [pandas.Timestamp] *)

Module Calendar.

(** [datetime.date], as [st.sidebar.date_input] returns it. *)
Record date := mkdate { d_year : Z; d_month : Z; d_day : Z }.

(** [datetime.time], as [st.sidebar.time_input] returns it. *)
Record time := mktime { t_hour : Z; t_minute : Z; t_second : Z }.

(** [pandas.Timestamp]: the fields [run] reads. *)
Record Timestamp := mkTimestamp
  { year : Z; month : Z; day : Z; hour : Z; minute : Z; second : Z }.

(** [pd.Timestamp.combine(date, time)] *)
Definition combine (d : date) (t : time) : Timestamp :=
  {| year := d_year d; month := d_month d; day := d_day d;
     hour := t_hour t; minute := t_minute t; second := t_second t |}.

(** The proleptic Gregorian calendar of the [datetime] module. *)
Definition is_leap (y : Z) : bool :=
  (y mod 4 =? 0) && (negb (y mod 100 =? 0) || (y mod 400 =? 0)).

Definition days_before_year (y : Z) : Z :=
  let p := y - 1 in p * 365 + p / 4 - p / 100 + p / 400.

Definition days_in_month (y m : Z) : Z :=
  match m with
  | 2 => if is_leap y then 29 else 28
  | 4 | 6 | 9 | 11 => 30
  | _ => 31
  end.

Definition days_before_month (y m : Z) : Z :=
  match m with
  | 1 => 0 | 2 => 31 | 3 => 59 | 4 => 90 | 5 => 120 | 6 => 151
  | 7 => 181 | 8 => 212 | 9 => 243 | 10 => 273 | 11 => 304 | _ => 334
  end + (if (2 <? m) && is_leap y then 1 else 0).

(** Day number, 0001-01-01 being day 1. *)
Definition ymd2ord (y m d : Z) : Z :=
  days_before_year y + days_before_month y m + d.

Definition toordinal (ts : Timestamp) : Z :=
  ymd2ord (year ts) (month ts) (day ts).

(** [Timestamp.weekday()]: Monday is 0 and Sunday is 6. *)
Definition weekday (ts : Timestamp) : Z := (toordinal ts + 6) mod 7.

(** What [datetime.date] accepts. *)
Definition valid_date (d : date) : Prop :=
  1 <= d_year d <= 9999 /\ 1 <= d_month d <= 12 /\
  1 <= d_day d <= days_in_month (d_year d) (d_month d).

(** A month of the calendar and a day of that month. *)
Definition on_calendar (d : date) : Prop :=
  1 <= d_month d <= 12 /\
  1 <= d_day d <= days_in_month (d_year d) (d_month d).

(** The day after [d]. *)
Definition tomorrow (d : date) : date :=
  if d_day d <? days_in_month (d_year d) (d_month d)
  then mkdate (d_year d) (d_month d) (d_day d + 1)
  else if d_month d <? 12
       then mkdate (d_year d) (d_month d + 1) 1
       else mkdate (d_year d + 1) 1 1.

Definition date_ordinal (d : date) : Z :=
  ymd2ord (d_year d) (d_month d) (d_day d).

(** 2024-11-25, a Monday. *)
Definition a_monday : date := mkdate 2024 11 25.

End Calendar.

(** ** Values, data frames and exceptions *)

(** A cell of the data frame: a Python [int] or a Python [float]. *)
Inductive value :=
| VInt (z : Z)
| VFloat (f : float).

(** A one-row [DataFrame]: its columns in order, each with its cell. *)
Definition DataFrame := list (string * value).

Definition columns (df : DataFrame) : list string := fst <$> df.
Definition values (df : DataFrame) : list value := snd <$> df.

(** [df[name]] on the single row; [None] when there is no such column. *)
Fixpoint cell (df : DataFrame) (name : string) : option value :=
  match df with
  | [] => None
  | (c, v) :: rest => if String.eqb c name then Some v else cell rest name
  end.

(** The exceptions the script tells apart.  [KeyError] carries the labels
    pandas reports as not in the index; [OtherError] is any other subclass
    of [Exception]. *)
Inductive exc :=
| FileNotFoundError (msg : string)
| KeyError (missing : list string)
| ValueError (msg : string)
| OtherError (msg : string).

Definition is_FileNotFoundError (e : exc) : bool :=
  match e with FileNotFoundError _ => true | _ => false end.
Definition is_KeyError (e : exc) : bool :=
  match e with KeyError _ => true | _ => false end.
Definition is_ValueError (e : exc) : bool :=
  match e with ValueError _ => true | _ => false end.
(** Every [exc] is an [Exception]. *)
Definition is_Exception (e : exc) : bool := true.

(** [Index.unique()]: each label once, in the order of first appearance. *)
Fixpoint unique (l : list string) : list string :=
  match l with
  | [] => []
  | x :: rest =>
      x :: List.filter (fun y => negb (String.eqb x y)) (unique rest)
  end.

(** The labels of [names] that are not columns of [df], each once. *)
Definition missing_labels (df : DataFrame) (names : list string)
  : list string :=
  unique
    (List.filter
       (fun n => match cell df n with Some _ => false | None => true end)
       names).

(** [df[names]] with a list of labels: the named columns, in the order of
    [names]; [KeyError] when a label is not a column. *)
Definition DataFrame_getitem (df : DataFrame) (names : list string)
  : exc + DataFrame :=
  match mapM (fun n => pair n <$> cell df n) names with
  | Some sel => inr sel
  | None => inl (KeyError (missing_labels df names))
  end.

(** A loaded regression model with one target: [predict] returns one
    estimate, a float, per row, or raises. *)
Record Predictor := { predict : DataFrame -> exc + list float }.

(** [a[0]] *)
Definition item0 (a : list float) : exc + float :=
  match a with
  | y :: _ => inr y
  | [] => inl (OtherError "index 0 is out of bounds for axis 0 with size 0")
  end.

(** ** The script monad: the app object, the page, control flow *)

Inductive model_id := Linear | Ridge.

(** What the script puts on the page. *)
Inductive element :=
| PageConfig
| CustomCss
| SidebarHeader
| Toast (msg : string)
| Error (msg : string) (e : exc)
| Title
| PredictionCard (linear_pred ridge_pred : float)
| Disclaimer.

(** The trace: elements put on the page, and calls of a model's
    [predict]. *)
Inductive event :=
| Display (el : element)
| Predict (m : model_id) (X : DataFrame).

(** The attributes of the [EnergyConsumptionApp] object; [None] while an
    attribute is not assigned. *)
Record Self := mkSelf
  { linear_model : option Predictor;
    ridge_model : option Predictor;
    feature_names : option (list string) }.

Record World := mkWorld { self : Self; trace : list event }.

(** How a piece of script ends: it returns, [st.stop()] halts the script
    run (a [StopException], which no [except] clause of the script catches),
    or an exception is raised. *)
Inductive result (A : Type) :=
| Ret (a : A)
| Stop
| Raise (e : exc).
Arguments Ret {A} a.
Arguments Stop {A}.
Arguments Raise {A} e.

Definition Script (A : Type) := World -> result A * World.

Definition ret {A} (a : A) : Script A := fun w => (Ret a, w).

Definition bind {A B} (m : Script A) (k : A -> Script B) : Script B :=
  fun w =>
    match m w with
    | (Ret a, w') => k a w'
    | (Stop, w') => (Stop, w')
    | (Raise e, w') => (Raise e, w')
    end.

Notation "x <- m ;; k" := (bind m (fun x => k))
  (at level 100, m at next level, right associativity).
Notation "m ;;; k" := (bind m (fun _ => k))
  (at level 100, right associativity).

Definition raise {A} (e : exc) : Script A := fun w => (Raise e, w).

(** A library call that returns or raises. *)
Definition lift {A} (r : exc + A) : Script A :=
  match r with inl e => raise e | inr a => ret a end.

Definition emit (ev : event) : Script unit :=
  fun w => (Ret tt, mkWorld (self w) (trace w ++ [ev])).

Definition show (el : element) : Script unit := emit (Display el).

(** [st.error(f"{msg}{e}")] *)
Definition st_error (msg : string) (e : exc) : Script unit :=
  show (Error msg e).

(** [st.stop()] *)
Definition st_stop {A} : Script A := fun w => (Stop, w).

(** [try: body  except C1 as e: h1  except C2 as e: h2 ...]: the first
    clause whose class matches handles the exception. *)
Fixpoint handle {A} (clauses : list ((exc -> bool) * (exc -> Script A)))
  (e : exc) : Script A :=
  match clauses with
  | [] => raise e
  | (matches, h) :: rest => if matches e then h e else handle rest e
  end.

Definition try_except {A} (body : Script A)
  (clauses : list ((exc -> bool) * (exc -> Script A))) : Script A :=
  fun w =>
    match body w with
    | (Raise e, w') => handle clauses e w'
    | other => other
    end.

(** Reading an attribute of [self]; [AttributeError] when it is not set. *)
Definition getattr {A} (name : string) (field : Self -> option A) : Script A :=
  fun w =>
    match field (self w) with
    | Some a => (Ret a, w)
    | None => (Raise (OtherError ("AttributeError: " ++ name)), w)
    end.

Definition set_linear_model (m : Predictor) : Script unit :=
  fun w => (Ret tt,
    mkWorld (mkSelf (Some m) (ridge_model (self w)) (feature_names (self w)))
            (trace w)).
Definition set_ridge_model (m : Predictor) : Script unit :=
  fun w => (Ret tt,
    mkWorld (mkSelf (linear_model (self w)) (Some m) (feature_names (self w)))
            (trace w)).
Definition set_feature_names (l : list string) : Script unit :=
  fun w => (Ret tt,
    mkWorld (mkSelf (linear_model (self w)) (ridge_model (self w)) (Some l))
            (trace w)).

(** ** [EnergyConsumptionApp] *)

(** What [joblib.load] gives for each of the three artifact files. *)
Record Disk := mkDisk
  { linear_model_pkl : exc + Predictor;
    ridge_model_pkl : exc + Predictor;
    feature_names_pkl : exc + list string }.

Definition setup_custom_css : Script unit := show CustomCss.

Definition setup_page : Script unit := show SidebarHeader.

Definition load_resources (disk : Disk) : Script unit :=
  try_except
    (m <- lift (linear_model_pkl disk) ;; set_linear_model m ;;;
     m <- lift (ridge_model_pkl disk) ;; set_ridge_model m ;;;
     l <- lift (feature_names_pkl disk) ;; set_feature_names l ;;;
     show (Toast "Models loaded successfully!"))
    [ (is_FileNotFoundError,
       fun e => st_error "File not found: " e ;;; st_stop);
      (is_Exception,
       fun e => st_error "Error loading resources: " e ;;; st_stop) ].

Definition __init__ (disk : Disk) : Script unit :=
  show PageConfig ;;;
  setup_custom_css ;;;
  setup_page ;;;
  load_resources disk.

(** The values the sidebar widgets return. *)
Record Inputs := mkInputs
  { voltage : float;
    global_intensity : float;
    sub_metering_1 : float;
    sub_metering_2 : float;
    sub_metering_3 : float;
    date : Calendar.date;
    time : Calendar.time }.

(** The data frame [run] builds before it selects the models' columns. *)
Definition input_data (i : Inputs) : DataFrame :=
  let date_time := Calendar.combine (date i) (time i) in
  let '(year, month, day, hour, minute) :=
    (Calendar.year date_time, Calendar.month date_time,
     Calendar.day date_time, Calendar.hour date_time,
     Calendar.minute date_time) in
  let '(is_holiday, light, weekday) := (0, 1, Calendar.weekday date_time) in
  [ ("Global_reactive_power", VFloat 0.0);
    ("Voltage", VFloat (voltage i));
    ("Global_intensity", VFloat (global_intensity i));
    ("Sub_metering_1", VFloat (sub_metering_1 i));
    ("Sub_metering_2", VFloat (sub_metering_2 i));
    ("Sub_metering_3", VFloat (sub_metering_3 i));
    ("Year", VInt year);
    ("Month", VInt month);
    ("Day", VInt day);
    ("Hour", VInt hour);
    ("Minute", VInt minute);
    ("Is_holiday", VInt is_holiday);
    ("Light", VInt light);
    ("Weekday", VInt weekday) ].

(** [p.predict(X)[0]] *)
Definition predict_item0 (p : Predictor) (X : DataFrame) : exc + float :=
  match predict p X with
  | inl e => inl e
  | inr a => item0 a
  end.

Definition attr_name (m : model_id) : string :=
  match m with Linear => "linear_model" | Ridge => "ridge_model" end.

Definition attr (m : model_id) : Self -> option Predictor :=
  match m with Linear => linear_model | Ridge => ridge_model end.

(** [self.<model>.predict(X)[0]]; the call is recorded in the trace. *)
Definition model_predict (m : model_id) (X : DataFrame) : Script float :=
  p <- getattr (attr_name m) (attr m) ;;
  emit (Predict m X) ;;;
  lift (predict_item0 p X).

Definition run (i : Inputs) : Script unit :=
  show Title ;;;
  X <- try_except
         (names <- getattr "feature_names" feature_names ;;
          lift (DataFrame_getitem (input_data i) names))
         [ (is_KeyError,
            fun e => st_error "Missing features: " e ;;; st_stop) ] ;;
  try_except
    (linear_pred <- model_predict Linear X ;;
     ridge_pred <- model_predict Ridge X ;;
     show (PredictionCard linear_pred ridge_pred))
    [ (is_ValueError, fun e => st_error "Prediction error: " e) ] ;;;
  show Disclaimer.

(** The script: [app = EnergyConsumptionApp(); app.run()]. *)
Definition main (disk : Disk) (i : Inputs) : Script unit :=
  __init__ disk ;;; run i.

(** The world a script run starts from. *)
Definition fresh : World := mkWorld (mkSelf None None None) [].

(** The values the sliders and the date and time inputs start with. *)
Definition default_inputs : Inputs :=
  {| voltage := 240.0; global_intensity := 4.63; sub_metering_1 := 1.12;
     sub_metering_2 := 1.30; sub_metering_3 := 6.46;
     date := Calendar.mkdate 2024 11 28; time := Calendar.mktime 12 0 0 |}.

(** A predictor that answers [c] whatever the row. *)
Definition constant_model (c : float) : Predictor :=
  {| predict := fun _ => inr [c] |}.

(** A predictor that rejects every row with a [ValueError]. *)
Definition rejecting_model (msg : string) : Predictor :=
  {| predict := fun _ => inl (ValueError msg) |}.

(** An app object after a successful [load_resources]. *)
Definition loaded (lm rm : Predictor) (names : list string) : World :=
  mkWorld (mkSelf (Some lm) (Some rm) (Some names)) [].

(** The exception of the first artifact, in the order [load_resources]
    loads them, whose load raises. *)
Definition first_failure (disk : Disk) : option exc :=
  match linear_model_pkl disk, ridge_model_pkl disk, feature_names_pkl disk with
  | inl e, _, _ => Some e
  | inr _, inl e, _ => Some e
  | inr _, inr _, inl e => Some e
  | inr _, inr _, inr _ => None
  end.

(** The events that are calls of a model. *)
Definition is_Predict (ev : event) : bool :=
  match ev with Predict _ _ => true | Display _ => false end.

(** The events that answer the interaction: the prediction card or an
    error message. *)
Definition is_answer (ev : event) : bool :=
  match ev with
  | Display (PredictionCard _ _) | Display (Error _ _) => true
  | _ => false
  end.

(** The ways through [run]: how it ends and what it adds to the trace, for
    the app object [s] and the inputs [i]. *)
Inductive run_path (s : Self) (i : Inputs)
  : result unit -> list event -> Prop :=
| path_no_feature_names :
    feature_names s = None ->
    run_path s i (Raise (OtherError "AttributeError: feature_names"))
      [Display Title]
| path_missing_features names e :
    feature_names s = Some names ->
    DataFrame_getitem (input_data i) names = inl e ->
    run_path s i Stop [Display Title; Display (Error "Missing features: " e)]
| path_no_linear_model names X :
    feature_names s = Some names ->
    DataFrame_getitem (input_data i) names = inr X ->
    linear_model s = None ->
    run_path s i (Raise (OtherError "AttributeError: linear_model"))
      [Display Title]
| path_linear_rejects names X lm e :
    feature_names s = Some names ->
    DataFrame_getitem (input_data i) names = inr X ->
    linear_model s = Some lm ->
    predict_item0 lm X = inl e ->
    is_ValueError e = true ->
    run_path s i (Ret tt)
      [Display Title; Predict Linear X;
       Display (Error "Prediction error: " e); Display Disclaimer]
| path_linear_raises names X lm e :
    feature_names s = Some names ->
    DataFrame_getitem (input_data i) names = inr X ->
    linear_model s = Some lm ->
    predict_item0 lm X = inl e ->
    is_ValueError e = false ->
    run_path s i (Raise e) [Display Title; Predict Linear X]
| path_no_ridge_model names X lm a :
    feature_names s = Some names ->
    DataFrame_getitem (input_data i) names = inr X ->
    linear_model s = Some lm ->
    predict_item0 lm X = inr a ->
    ridge_model s = None ->
    run_path s i (Raise (OtherError "AttributeError: ridge_model"))
      [Display Title; Predict Linear X]
| path_ridge_rejects names X lm a rm e :
    feature_names s = Some names ->
    DataFrame_getitem (input_data i) names = inr X ->
    linear_model s = Some lm ->
    predict_item0 lm X = inr a ->
    ridge_model s = Some rm ->
    predict_item0 rm X = inl e ->
    is_ValueError e = true ->
    run_path s i (Ret tt)
      [Display Title; Predict Linear X; Predict Ridge X;
       Display (Error "Prediction error: " e); Display Disclaimer]
| path_ridge_raises names X lm a rm e :
    feature_names s = Some names ->
    DataFrame_getitem (input_data i) names = inr X ->
    linear_model s = Some lm ->
    predict_item0 lm X = inr a ->
    ridge_model s = Some rm ->
    predict_item0 rm X = inl e ->
    is_ValueError e = false ->
    run_path s i (Raise e)
      [Display Title; Predict Linear X; Predict Ridge X]
| path_predictions names X lm a rm b :
    feature_names s = Some names ->
    DataFrame_getitem (input_data i) names = inr X ->
    linear_model s = Some lm ->
    predict_item0 lm X = inr a ->
    ridge_model s = Some rm ->
    predict_item0 rm X = inr b ->
    run_path s i (Ret tt)
      [Display Title; Predict Linear X; Predict Ridge X;
       Display (PredictionCard a b); Display Disclaimer].

(** The world after a script has added [ev] to the trace of [w]. *)
Definition after (w : World) (ev : list event) : World :=
  mkWorld (self w) (trace w ++ ev).

(** A script that only reads [self] and only adds to the trace: what it
    returns and what it adds depend on [self] alone. *)
Definition reads_only {A} (m : Script A) : Prop :=
  forall s : Self, exists (r : result A) (ev : list event),
    forall t, m (mkWorld s t) = (r, mkWorld s (t ++ ev)).

(** * Properties *)

(** ** The calendar *)

Section CalendarFacts.

Import Calendar.

Lemma weekday_range (ts : Timestamp) : 0 <= weekday ts <= 6.
Proof.
  unfold weekday.
  pose proof (Z.mod_pos_bound (toordinal ts + 6) 7 ltac:(lia)). lia.
Qed.

Lemma toordinal_combine (d : date) (t : time) :
  toordinal (combine d t) = date_ordinal d.
Proof. reflexivity. Qed.

(** A year has 365 days, and one more when it is a leap year. *)
Lemma days_before_year_succ (y : Z) :
  days_before_year (y + 1) =
  days_before_year y + 365 + (if is_leap y then 1 else 0).
Proof.
  unfold days_before_year, is_leap.
  replace (y + 1 - 1) with y by lia.
  destruct (Z.eqb_spec (y mod 4) 0), (Z.eqb_spec (y mod 100) 0),
    (Z.eqb_spec (y mod 400) 0); cbn [negb andb orb];
    Z.div_mod_to_equations; lia.
Qed.

Lemma days_before_month_succ (y m : Z) :
  1 <= m < 12 ->
  days_before_month y (m + 1) = days_before_month y m + days_in_month y m.
Proof.
  intros Hm.
  assert (Hc : m = 1 \/ m = 2 \/ m = 3 \/ m = 4 \/ m = 5 \/ m = 6 \/ m = 7 \/
               m = 8 \/ m = 9 \/ m = 10 \/ m = 11) by lia.
  unfold days_before_month, days_in_month.
  repeat (destruct Hc as [-> | Hc]); try subst m; cbn;
    destruct (is_leap y); reflexivity.
Qed.

Lemma days_before_december (y : Z) :
  days_before_month y 12 + days_in_month y 12 =
  365 + (if is_leap y then 1 else 0).
Proof.
  unfold days_before_month, days_in_month. cbn.
  destruct (is_leap y); reflexivity.
Qed.

(** [tomorrow] is the next day of the calendar: its day number is one more. *)
Lemma date_ordinal_tomorrow (d : date) :
  valid_date d -> date_ordinal (tomorrow d) = date_ordinal d + 1.
Proof.
  intros (Hy & Hm & Hd). unfold tomorrow, date_ordinal.
  destruct (Z.ltb_spec (d_day d) (days_in_month (d_year d) (d_month d)))
    as [Hlt | Hge].
  - cbn. unfold ymd2ord. lia.
  - assert (Hlast : d_day d = days_in_month (d_year d) (d_month d)) by lia.
    destruct (Z.ltb_spec (d_month d) 12) as [Hm12 | Hm12]; cbn; unfold ymd2ord.
    + rewrite days_before_month_succ by lia. lia.
    + assert (Hdec : d_month d = 12) by lia.
      rewrite Hdec in *. rewrite days_before_year_succ.
      pose proof (days_before_december (d_year d)).
      change (days_before_month (d_year d + 1) 1) with 0. lia.
Qed.

(** The weekday of the next day is the next weekday, Sunday (6) being
    followed by Monday (0). *)
Lemma weekday_tomorrow (d : date) (t : time) :
  valid_date d ->
  weekday (combine (tomorrow d) t) = (weekday (combine d t) + 1) mod 7.
Proof.
  intros Hv. unfold weekday.
  rewrite !toordinal_combine, (date_ordinal_tomorrow d Hv).
  rewrite Zplus_mod_idemp_l. f_equal. lia.
Qed.

(** The weekday counts the days since a Monday, modulo 7. *)
Lemma weekday_since_monday (ts : Timestamp) :
  weekday ts = (toordinal ts - date_ordinal a_monday) mod 7.
Proof.
  unfold weekday.
  assert (E : date_ordinal a_monday = 7 * 105602 + 1) by reflexivity.
  rewrite E.
  replace (toordinal ts + 6)
    with (toordinal ts - (7 * 105602 + 1) + 105603 * 7) by lia.
  apply Z_mod_plus_full.
Qed.

Lemma valid_date_on_calendar (d : date) : valid_date d -> on_calendar d.
Proof. intros (_ & Hm & Hd). now split. Qed.

Lemma days_in_month_ge_28 (y m : Z) : 28 <= days_in_month y m.
Proof.
  unfold days_in_month.
  repeat match goal with
         | |- context [match ?x with _ => _ end] => destruct x
         end; lia.
Qed.

Lemma tomorrow_on_calendar (d : date) :
  on_calendar d -> on_calendar (tomorrow d).
Proof.
  intros [Hm Hd]. unfold tomorrow, on_calendar.
  destruct (Z.ltb_spec (d_day d) (days_in_month (d_year d) (d_month d)));
    [cbn; lia|].
  destruct (Z.ltb_spec (d_month d) 12); cbn [d_year d_month d_day].
  - pose proof (days_in_month_ge_28 (d_year d) (d_month d + 1)). lia.
  - pose proof (days_in_month_ge_28 (d_year d + 1) 1). lia.
Qed.

Lemma date_ordinal_tomorrow_on_calendar (d : date) :
  on_calendar d -> date_ordinal (tomorrow d) = date_ordinal d + 1.
Proof.
  intros (Hm & Hd). unfold tomorrow, date_ordinal.
  destruct (Z.ltb_spec (d_day d) (days_in_month (d_year d) (d_month d)))
    as [Hlt | Hge].
  - cbn. unfold ymd2ord. lia.
  - assert (Hlast : d_day d = days_in_month (d_year d) (d_month d)) by lia.
    destruct (Z.ltb_spec (d_month d) 12) as [Hm12 | Hm12]; cbn; unfold ymd2ord.
    + rewrite days_before_month_succ by lia. lia.
    + assert (Hdec : d_month d = 12) by lia.
      rewrite Hdec in *. rewrite days_before_year_succ.
      pose proof (days_before_december (d_year d)).
      change (days_before_month (d_year d + 1) 1) with 0. lia.
Qed.

(** [n] days later the day number is [n] more. *)
Lemma date_ordinal_days_later (n : nat) (d : date) :
  on_calendar d ->
  on_calendar (Nat.iter n tomorrow d) /\
  date_ordinal (Nat.iter n tomorrow d) = date_ordinal d + Z.of_nat n.
Proof.
  intros Hd. induction n as [| n [IHc IHo]].
  - split; [exact Hd | cbn [Nat.iter nat_rect]; lia].
  - rewrite Nat.iter_succ. split; [now apply tomorrow_on_calendar|].
    rewrite (date_ordinal_tomorrow_on_calendar _ IHc), IHo. lia.
Qed.

(** [n] days later the weekday is [n] further, modulo 7. *)
Lemma weekday_days_later (n : nat) (d : date) (t t' : time) :
  on_calendar d ->
  weekday (combine (Nat.iter n tomorrow d) t') =
  (weekday (combine d t) + Z.of_nat n) mod 7.
Proof.
  intros Hd. unfold weekday. rewrite !toordinal_combine.
  rewrite (proj2 (date_ordinal_days_later n d Hd)).
  rewrite Zplus_mod_idemp_l. f_equal. lia.
Qed.

(** [n] days before a Monday the weekday is [-n] modulo 7. *)
Lemma weekday_days_before_monday (n : nat) (d : date) (t : time) :
  on_calendar d -> Nat.iter n tomorrow d = a_monday ->
  weekday (combine d t) = (- Z.of_nat n) mod 7.
Proof.
  intros Hd Hn.
  pose proof (weekday_days_later n d t t Hd) as H. rewrite Hn in H.
  change (weekday (combine a_monday t)) with 0 in H.
  pose proof (weekday_range (combine d t)).
  symmetry in H. revert H.
  generalize (weekday (combine d t)) (Z.of_nat n) H0. clear.
  intros w k Hw H. Z.div_mod_to_equations. lia.
Qed.

End CalendarFacts.

(** ** Selecting columns *)

Lemma unique_In (l : list string) (y : string) : In y (unique l) <-> In y l.
Proof.
  induction l as [| x rest IH]; cbn; [tauto|].
  rewrite filter_In, IH.
  destruct (String.eqb_spec x y) as [-> | Hne]; cbn; [tauto|].
  split; [tauto|]. intros [Heq | Hin]; [contradiction | tauto].
Qed.

Section Getitem.

Variable df : DataFrame.

Lemma getitem_inr (names : list string) (X : DataFrame) :
  DataFrame_getitem df names = inr X ->
  Forall2 (fun n c => exists v, cell df n = Some v /\ c = (n, v)) names X.
Proof.
  unfold DataFrame_getitem.
  destruct (mapM _ names) as [sel|] eqn:E; [|discriminate].
  intros [= <-]. apply mapM_Some_1 in E.
  eapply Forall2_impl; [exact E|].
  intros n c Hc. cbn in Hc.
  destruct (cell df n) as [v|]; [|discriminate].
  exists v. split; [reflexivity|]. now injection Hc.
Qed.

Lemma getitem_total (names : list string) :
  Forall (fun n => is_Some (cell df n)) names ->
  exists X, DataFrame_getitem df names = inr X.
Proof.
  intros Hall. unfold DataFrame_getitem.
  destruct (mapM _ names) as [sel|] eqn:E; [eauto|].
  apply mapM_None_1, Exists_exists in E as (n & Hin & Hn).
  rewrite Forall_forall in Hall. destruct (Hall n Hin) as [v Hv].
  rewrite Hv in Hn. discriminate.
Qed.

Lemma missing_labels_spec (names : list string) (n : string) :
  In n (missing_labels df names) <-> In n names /\ cell df n = None.
Proof.
  unfold missing_labels. rewrite unique_In, filter_In.
  destruct (cell df n); split; intros [? ?]; (split; [assumption|]);
    congruence.
Qed.

Lemma getitem_KeyError (names : list string) (n : string) :
  In n names -> cell df n = None ->
  DataFrame_getitem df names = inl (KeyError (missing_labels df names)).
Proof.
  intros Hin Hn. unfold DataFrame_getitem.
  destruct (mapM _ names) as [sel|] eqn:E; [|reflexivity].
  apply mapM_Some_1 in E.
  apply list_elem_of_In, list_elem_of_lookup_1 in Hin as [k Hk].
  destruct (Forall2_lookup_l _ _ _ _ _ E Hk) as (c & _ & Hc).
  rewrite Hn in Hc. discriminate.
Qed.

End Getitem.

(** ** Scripts that only read [self] *)

Section ReadsOnly.

Context {A B : Type}.

Lemma reads_only_ret (a : A) : reads_only (ret a).
Proof. intros s. exists (Ret a), []. intros t. now rewrite app_nil_r. Qed.

Lemma reads_only_raise (e : exc) : reads_only (@raise A e).
Proof.
  intros s. exists (Raise e), []. intros t. unfold raise.
  now rewrite app_nil_r.
Qed.

Lemma reads_only_st_stop : reads_only (@st_stop A).
Proof.
  intros s. exists Stop, []. intros t. unfold st_stop.
  now rewrite app_nil_r.
Qed.

Lemma reads_only_lift (r : exc + A) : reads_only (lift r).
Proof. destruct r; [apply reads_only_raise | apply reads_only_ret]. Qed.

Lemma reads_only_getattr (name : string) (field : Self -> option A) :
  reads_only (getattr name field).
Proof.
  intros s. unfold getattr. cbn.
  destruct (field s) as [a|]; [exists (Ret a), [] | eexists (Raise _), []];
    intros t; now rewrite app_nil_r.
Qed.

Lemma reads_only_bind (m : Script A) (k : A -> Script B) :
  reads_only m -> (forall a, reads_only (k a)) -> reads_only (bind m k).
Proof.
  intros Hm Hk s. destruct (Hm s) as (r & ev & Hr). unfold bind.
  destruct r as [a | | e].
  - destruct (Hk a s) as (r' & ev' & Hr'). exists r', (app ev ev').
    intros t. now rewrite Hr, Hr', app_assoc.
  - exists Stop, ev. intros t. now rewrite Hr.
  - exists (Raise e), ev. intros t. now rewrite Hr.
Qed.

Lemma reads_only_handle (clauses : list ((exc -> bool) * (exc -> Script A)))
  (e : exc) :
  Forall (fun c => forall e', reads_only (snd c e')) clauses ->
  reads_only (handle clauses e).
Proof.
  induction 1 as [| [matches h] rest Hh _ IH]; cbn.
  - apply reads_only_raise.
  - destruct (matches e); [apply Hh | apply IH].
Qed.

Lemma reads_only_try_except (body : Script A)
  (clauses : list ((exc -> bool) * (exc -> Script A))) :
  reads_only body ->
  Forall (fun c => forall e, reads_only (snd c e)) clauses ->
  reads_only (try_except body clauses).
Proof.
  intros Hb Hc s. destruct (Hb s) as (r & ev & Hr). unfold try_except.
  destruct r as [a | | e].
  - exists (Ret a), ev. intros t. now rewrite Hr.
  - exists Stop, ev. intros t. now rewrite Hr.
  - destruct (reads_only_handle clauses e Hc s) as (r' & ev' & Hr').
    exists r', (app ev ev'). intros t. now rewrite Hr, Hr', app_assoc.
Qed.

End ReadsOnly.

Lemma reads_only_emit (ev : event) : reads_only (emit ev).
Proof. intros s. exists (Ret tt), [ev]. reflexivity. Qed.

Lemma reads_only_st_error (msg : string) (e : exc) :
  reads_only (st_error msg e).
Proof. apply reads_only_emit. Qed.

Create HintDb script discriminated.
#[local] Hint Resolve reads_only_ret reads_only_raise reads_only_st_stop
  reads_only_lift reads_only_getattr reads_only_emit reads_only_st_error
  : script.
#[local] Hint Extern 2 (reads_only (bind _ _)) =>
  apply reads_only_bind; [| intros ?] : script.
#[local] Hint Extern 2 (reads_only (try_except _ _)) =>
  apply reads_only_try_except; [| repeat constructor; cbn; intros ?] : script.
#[local] Hint Extern 1 (reads_only (show _)) => apply reads_only_emit : script.

Lemma reads_only_model_predict (m : model_id) (X : DataFrame) :
  reads_only (model_predict m X).
Proof. unfold model_predict. auto 10 with script. Qed.

Lemma reads_only_run (i : Inputs) : reads_only (run i).
Proof.
  unfold run. pose proof reads_only_model_predict.
  auto 12 with script.
Qed.

(** [run] leaves the attributes of the app object as they are. *)
Lemma run_self (i : Inputs) (w : World) : self (snd (run i w)) = self w.
Proof.
  destruct w as [s t]. destruct (reads_only_run i s) as (r & ev & Hr).
  now rewrite Hr.
Qed.

(** ** What [run] does, case by case *)

Ltac script_unfold :=
  cbv [run main __init__ load_resources setup_custom_css setup_page
       model_predict bind try_except handle getattr show emit lift ret raise
       st_error st_stop set_linear_model set_ridge_model set_feature_names
       after is_Exception];
  cbn [self trace linear_model ridge_model feature_names attr attr_name
       fst snd].

Lemma model_predict_eq (m : model_id) (X : DataFrame) (w : World)
  (p : Predictor) :
  attr m (self w) = Some p ->
  model_predict m X w =
  (match predict_item0 p X with inl e => Raise e | inr y => Ret y end,
   after w [Predict m X]).
Proof.
  intros Hp. script_unfold. rewrite Hp.
  destruct (predict_item0 p X); reflexivity.
Qed.

Lemma run_KeyError (i : Inputs) (w : World) (names ms : list string) :
  feature_names (self w) = Some names ->
  DataFrame_getitem (input_data i) names = inl (KeyError ms) ->
  run i w =
  (Stop,
   after w [Display Title;
            Display (Error "Missing features: " (KeyError ms))]).
Proof.
  intros Hn Hg. script_unfold. rewrite Hn, Hg. cbn.
  now rewrite <- app_assoc.
Qed.

Section RunAligned.

Variables (i : Inputs) (w : World) (names : list string) (X : DataFrame).
Variables lm rm : Predictor.
Hypothesis Hnames : feature_names (self w) = Some names.
Hypothesis Haligned : DataFrame_getitem (input_data i) names = inr X.
Hypothesis Hlinear : linear_model (self w) = Some lm.
Hypothesis Hridge : ridge_model (self w) = Some rm.

Lemma run_linear_raises (e : exc) :
  predict_item0 lm X = inl e ->
  run i w =
  if is_ValueError e
  then (Ret tt, after w [Display Title; Predict Linear X;
                         Display (Error "Prediction error: " e);
                         Display Disclaimer])
  else (Raise e, after w [Display Title; Predict Linear X]).
Proof.
  intros He. script_unfold. rewrite Hnames, Haligned. cbn.
  rewrite Hlinear, He. cbn.
  destruct (is_ValueError e); cbn; now rewrite <- !app_assoc.
Qed.

Lemma run_ridge_raises (a : float) (e : exc) :
  predict_item0 lm X = inr a ->
  predict_item0 rm X = inl e ->
  run i w =
  if is_ValueError e
  then (Ret tt, after w [Display Title; Predict Linear X; Predict Ridge X;
                         Display (Error "Prediction error: " e);
                         Display Disclaimer])
  else (Raise e, after w [Display Title; Predict Linear X; Predict Ridge X]).
Proof.
  intros Ha He. script_unfold. rewrite Hnames, Haligned. cbn.
  rewrite Hlinear, Ha. cbn. rewrite Hridge, He. cbn.
  destruct (is_ValueError e); cbn; now rewrite <- !app_assoc.
Qed.

Lemma run_predicts (a b : float) :
  predict_item0 lm X = inr a ->
  predict_item0 rm X = inr b ->
  run i w =
  (Ret tt, after w [Display Title; Predict Linear X; Predict Ridge X;
                    Display (PredictionCard a b); Display Disclaimer]).
Proof.
  intros Ha Hb. script_unfold. rewrite Hnames, Haligned. cbn.
  rewrite Hlinear, Ha. cbn. rewrite Hridge, Hb. cbn.
  now rewrite <- !app_assoc.
Qed.

End RunAligned.

(** ** What [__init__] and [main] do *)

Lemma init_loads (disk : Disk) (w : World) (lm rm : Predictor)
  (names : list string) :
  linear_model_pkl disk = inr lm ->
  ridge_model_pkl disk = inr rm ->
  feature_names_pkl disk = inr names ->
  __init__ disk w =
  (Ret tt,
   mkWorld (mkSelf (Some lm) (Some rm) (Some names))
     (trace w ++ [Display PageConfig; Display CustomCss; Display SidebarHeader;
                  Display (Toast "Models loaded successfully!")])).
Proof.
  intros Hl Hr Hn. script_unfold. rewrite Hl, Hr, Hn. cbn.
  now rewrite <- !app_assoc.
Qed.

Lemma init_fails (disk : Disk) (w : World) (e : exc) :
  first_failure disk = Some e ->
  exists s : Self,
    __init__ disk w =
    (Stop,
     mkWorld s
       (trace w ++
        [Display PageConfig; Display CustomCss; Display SidebarHeader;
         Display (Error (if is_FileNotFoundError e then "File not found: "
                      else "Error loading resources: ") e)])).
Proof.
  unfold first_failure. intros Hf. script_unfold.
  destruct (linear_model_pkl disk) as [e1 | lm];
    [| destruct (ridge_model_pkl disk) as [e2 | rm];
       [| destruct (feature_names_pkl disk) as [e3 | names] ] ];
    inversion Hf; subst; cbn;
    destruct (is_FileNotFoundError e); cbn; rewrite <- !app_assoc;
    eexists; reflexivity.
Qed.


Lemma main_init_returns (disk : Disk) (i : Inputs) (w w' : World) :
  __init__ disk w = (Ret tt, w') -> main disk i w = run i w'.
Proof. intros H. unfold main, bind. now rewrite H. Qed.

(** ** Cells of a data frame *)

Lemma cell_is_Some (df : DataFrame) (n : string) :
  In n (columns df) -> is_Some (cell df n).
Proof.
  induction df as [| [c v] rest IH]; cbn; [tauto|].
  intros [-> | Hin].
  - rewrite String.eqb_refl. eauto.
  - destruct (String.eqb c n); eauto.
Qed.

Lemma getitem_columns_values (df : DataFrame) (names : list string)
  (X : DataFrame) :
  DataFrame_getitem df names = inr X ->
  columns X = names /\
  forall (k : nat) (n : string), names !! k = Some n ->
    exists v, cell df n = Some v /\ values X !! k = Some v.
Proof.
  intros HX. apply getitem_inr in HX. split.
  - induction HX as [| n c names X (v & _ & ->) _ IH]; cbn; [reflexivity|].
    f_equal. exact IH.
  - intros k n Hk.
    destruct (Forall2_lookup_l _ _ _ _ _ HX Hk) as (c & Hc & v & Hv & ->).
    exists v. split; [exact Hv|].
    unfold values. now rewrite list_lookup_fmap, Hc.
Qed.

(** ** The script on concrete artifacts *)

(** The default inputs, with models that answer 1.5 and 2.5 and were trained
    on three of the columns. *)
Example main_displays_both_estimates :
  main (mkDisk (inr (constant_model 1.5)) (inr (constant_model 2.5))
          (inr ["Weekday"; "Voltage"; "Light"]))
    default_inputs fresh =
  (Ret tt,
   mkWorld
     (mkSelf (Some (constant_model 1.5)) (Some (constant_model 2.5))
        (Some ["Weekday"; "Voltage"; "Light"]))
     [Display PageConfig; Display CustomCss; Display SidebarHeader;
      Display (Toast "Models loaded successfully!"); Display Title;
      Predict Linear
        [("Weekday", VInt 3); ("Voltage", VFloat 240.0); ("Light", VInt 1)];
      Predict Ridge
        [("Weekday", VInt 3); ("Voltage", VFloat 240.0); ("Light", VInt 1)];
      Display (PredictionCard 1.5 2.5); Display Disclaimer]).
Proof. reflexivity. Qed.

(** An exception of [predict] that is not a [ValueError] leaves [run]. *)
Example main_other_exception_propagates :
  main (mkDisk (inr {| predict := fun _ => inl (OtherError "TypeError") |})
          (inr (constant_model 2.5)) (inr ["Voltage"]))
    default_inputs fresh =
  (Raise (OtherError "TypeError"),
   mkWorld
     (mkSelf (Some {| predict := fun _ => inl (OtherError "TypeError") |})
        (Some (constant_model 2.5)) (Some ["Voltage"]))
     [Display PageConfig; Display CustomCss; Display SidebarHeader;
      Display (Toast "Models loaded successfully!"); Display Title;
      Predict Linear [("Voltage", VFloat 240.0)]]).
Proof. reflexivity. Qed.

(** * The claims *)

(** C1.  Whatever the readings, the date and the time, when every name
    of the expected feature order is a column of the built record, selecting
    the expected order from the record succeeds; the result has as many
    values as the order has names, its columns are the order itself, and its
    k-th value is the built record's value for the k-th expected name. *)
Theorem align_built_record (i : Inputs) (names : list string) :
  (forall n, In n names -> In n (columns (input_data i))) ->
  exists X : DataFrame,
    DataFrame_getitem (input_data i) names = inr X /\
    length (values X) = length names /\
    columns X = names /\
    forall (k : nat) (n : string), names !! k = Some n ->
      exists v, cell (input_data i) n = Some v /\ values X !! k = Some v.
Proof.
  intros Hkeys.
  destruct (getitem_total (input_data i) names) as [X HX].
  { apply Forall_forall. intros n Hn. apply cell_is_Some, Hkeys.
    now apply list_elem_of_In. }
  exists X. split; [exact HX|].
  destruct (getitem_columns_values _ _ _ HX) as [Hcols Hvals].
  repeat split; [| exact Hcols | exact Hvals].
  unfold values. rewrite length_fmap.
  symmetry. exact (Forall2_length _ _ _ (getitem_inr _ _ _ HX)).
Qed.

Lemma align_built_record_witness :
  exists X : DataFrame,
    DataFrame_getitem (input_data default_inputs)
      ["Weekday"; "Voltage"; "Hour"; "Voltage"] = inr X /\
    length (values X) = length ["Weekday"; "Voltage"; "Hour"; "Voltage"] /\
    columns X = ["Weekday"; "Voltage"; "Hour"; "Voltage"] /\
    forall (k : nat) (n : string),
      ["Weekday"; "Voltage"; "Hour"; "Voltage"] !! k = Some n ->
      exists v, cell (input_data default_inputs) n = Some v /\
                values X !! k = Some v.
Proof.
  apply (align_built_record default_inputs
           ["Weekday"; "Voltage"; "Hour"; "Voltage"]).
  intros n Hn. cbn in Hn. cbn.
  repeat (destruct Hn as [<- | Hn]; [tauto|]). contradiction.
Defined.

(** C2.  When the expected feature order holds a name that is not a
    column of the built record, selecting it raises [KeyError] naming that
    label and returns no data frame; [run] shows the "Missing features"
    error and stops the script run: no model is called, no value is put in
    the place of the missing one, and the app object is left as it was. *)
Theorem missing_feature_stops (i : Inputs) (w : World)
  (names : list string) (n : string) :
  feature_names (self w) = Some names ->
  In n names ->
  cell (input_data i) n = None ->
  exists ms : list string,
    In n ms /\
    DataFrame_getitem (input_data i) names = inl (KeyError ms) /\
    run i w =
    (Stop,
     after w [Display Title;
              Display (Error "Missing features: " (KeyError ms))]).
Proof.
  intros Hnames Hin Hnone.
  exists (missing_labels (input_data i) names).
  pose proof (getitem_KeyError _ _ _ Hin Hnone) as Hg.
  split; [now apply missing_labels_spec|].
  split; [exact Hg|].
  exact (run_KeyError _ _ _ _ Hnames Hg).
Qed.

Lemma missing_feature_stops_witness :
  exists ms : list string,
    In "Temperature" ms /\
    DataFrame_getitem (input_data default_inputs) ["Voltage"; "Temperature"]
    = inl (KeyError ms) /\
    run default_inputs
      (loaded (constant_model 1.5) (constant_model 2.5)
         ["Voltage"; "Temperature"]) =
    (Stop,
     after (loaded (constant_model 1.5) (constant_model 2.5)
              ["Voltage"; "Temperature"])
       [Display Title; Display (Error "Missing features: " (KeyError ms))]).
Proof.
  apply (missing_feature_stops default_inputs
           (loaded (constant_model 1.5) (constant_model 2.5)
              ["Voltage"; "Temperature"])
           ["Voltage"; "Temperature"] "Temperature").
  - reflexivity.
  - cbn. tauto.
  - reflexivity.
Defined.

(** C3.  The built record holds the year, month, day, hour and minute
    of the combined date and time, and as weekday an integer from 0 to 6
    with Monday as 0: the record for Monday 2024-11-25 has Weekday 0, the
    record for the day after a date of the calendar has the weekday of that
    date plus one modulo 7, so the record built [n] days after that Monday
    has Weekday [n mod 7] and the one built [n] days before it has
    [-n mod 7]; seven dates with well-known weekdays, from 1900 to 2100,
    have them.  For 2024-11-28 at 12:00 the record holds Year 2024,
    Month 11, Day 28, Hour 12, Minute 0 and Weekday 3. *)
Theorem calendar_features :
  (forall i : Inputs,
     let r := input_data i in
     let ts := Calendar.combine (date i) (time i) in
     cell r "Year" = Some (VInt (Calendar.d_year (date i))) /\
     cell r "Month" = Some (VInt (Calendar.d_month (date i))) /\
     cell r "Day" = Some (VInt (Calendar.d_day (date i))) /\
     cell r "Hour" = Some (VInt (Calendar.t_hour (time i))) /\
     cell r "Minute" = Some (VInt (Calendar.t_minute (time i))) /\
     cell r "Weekday" = Some (VInt (Calendar.weekday ts)) /\
     0 <= Calendar.weekday ts <= 6 /\
     Calendar.weekday ts =
     (Calendar.date_ordinal (date i) -
      Calendar.date_ordinal Calendar.a_monday) mod 7) /\
  (forall v gi s1 s2 s3 : float,
     let r := input_data (mkInputs v gi s1 s2 s3 (Calendar.mkdate 2024 11 28)
                            (Calendar.mktime 12 0 0)) in
     cell r "Year" = Some (VInt 2024) /\
     cell r "Month" = Some (VInt 11) /\
     cell r "Day" = Some (VInt 28) /\
     cell r "Hour" = Some (VInt 12) /\
     cell r "Minute" = Some (VInt 0) /\
     cell r "Weekday" = Some (VInt 3)) /\
  (forall i j : Inputs,
     Calendar.valid_date (date i) ->
     date j = Calendar.tomorrow (date i) ->
     exists d : Z,
       cell (input_data i) "Weekday" = Some (VInt d) /\
       cell (input_data j) "Weekday" = Some (VInt ((d + 1) mod 7))) /\
  (forall (n : nat) (i : Inputs),
     date i = Nat.iter n Calendar.tomorrow Calendar.a_monday ->
     cell (input_data i) "Weekday" = Some (VInt (Z.of_nat n mod 7))) /\
  (forall (n : nat) (i : Inputs),
     Calendar.valid_date (date i) ->
     Nat.iter n Calendar.tomorrow (date i) = Calendar.a_monday ->
     cell (input_data i) "Weekday" = Some (VInt ((- Z.of_nat n) mod 7))) /\
  Forall
    (fun known : Calendar.date * Z =>
       forall i : Inputs,
         date i = fst known ->
         cell (input_data i) "Weekday" = Some (VInt (snd known)))
    [ (Calendar.mkdate 1900 1 1, 0);
      (Calendar.mkdate 1970 1 1, 3);
      (Calendar.mkdate 2000 2 29, 1);
      (Calendar.mkdate 2024 12 31, 1);
      (Calendar.mkdate 2025 1 1, 2);
      (Calendar.mkdate 2025 11 28, 4);
      (Calendar.mkdate 2100 3 1, 0) ].
Proof.
  assert (Hcell : forall i : Inputs,
            cell (input_data i) "Weekday" =
            Some (VInt (Calendar.weekday
                          (Calendar.combine (date i) (time i)))))
    by reflexivity.
  split; [|split; [|split; [|split; [|split]]]].
  - intros i r ts. repeat split; try reflexivity.
    + apply weekday_range.
    + apply weekday_range.
    + apply weekday_since_monday.
  - intros v gi s1 s2 s3 r. repeat split; reflexivity.
  - intros i j Hv Hj. eexists. split; [apply Hcell|].
    rewrite Hcell, Hj. do 2 f_equal.
    rewrite <- (weekday_tomorrow (date i) (time i) Hv). reflexivity.
  - intros n i Hi. rewrite Hcell, Hi. do 2 f_equal.
    rewrite (weekday_days_later n Calendar.a_monday (time i) (time i)).
    + reflexivity.
    + cbv. repeat split; discriminate.
  - intros n i Hv Hn. rewrite Hcell. do 2 f_equal.
    apply weekday_days_before_monday; [|exact Hn].
    now apply valid_date_on_calendar.
  - repeat constructor; cbn [fst snd]; intros i Hi; rewrite Hcell, Hi;
      reflexivity.
Qed.

Lemma calendar_features_witness :
  exists d : Z,
    cell (input_data default_inputs) "Weekday" = Some (VInt d) /\
    cell (input_data
            (mkInputs 230.0 1.0 0.0 0.0 0.0 (Calendar.mkdate 2024 11 29)
               (Calendar.mktime 8 30 0))) "Weekday" =
    Some (VInt ((d + 1) mod 7)).
Proof.
  apply (proj1 (proj2 (proj2 calendar_features)) default_inputs
           (mkInputs 230.0 1.0 0.0 0.0 0.0 (Calendar.mkdate 2024 11 29)
              (Calendar.mktime 8 30 0))).
  - cbv. repeat split; discriminate.
  - reflexivity.
Defined.

(** C4.  Whatever the readings, the date and the time, the built record
    has Global_reactive_power 0.0, Light 1 and Is_holiday 0. *)
Theorem constant_features (i : Inputs) :
  cell (input_data i) "Global_reactive_power" = Some (VFloat 0.0) /\
  cell (input_data i) "Light" = Some (VInt 1) /\
  cell (input_data i) "Is_holiday" = Some (VInt 0).
Proof. repeat split; reflexivity. Qed.




(** C6.  When the aligned row is rejected with a [ValueError], by the
    linear model or, the linear model having answered, by the ridge model,
    [run] shows the "Prediction error" message with that exception, shows
    no prediction card, has called each model at most once, and returns
    normally with the app object unchanged. *)
Theorem prediction_error_is_shown (i : Inputs) (w : World)
  (names : list string) (X : DataFrame) (lm rm : Predictor) (msg : string) :
  feature_names (self w) = Some names ->
  DataFrame_getitem (input_data i) names = inr X ->
  linear_model (self w) = Some lm ->
  ridge_model (self w) = Some rm ->
  predict_item0 lm X = inl (ValueError msg) \/
  (exists a, predict_item0 lm X = inr a) /\
  predict_item0 rm X = inl (ValueError msg) ->
  exists calls : list event,
    (calls = [Predict Linear X] \/
     calls = [Predict Linear X; Predict Ridge X]) /\
    run i w =
    (Ret tt,
     after w (Display Title :: calls ++
              [Display (Error "Prediction error: " (ValueError msg));
               Display Disclaimer])).
Proof.
  intros Hn Hg Hl Hr [He | [[a Ha] He]].
  - exists [Predict Linear X]. split; [now left|].
    now rewrite (run_linear_raises i w names X lm Hn Hg Hl _ He).
  - exists [Predict Linear X; Predict Ridge X]. split; [now right|].
    now rewrite (run_ridge_raises i w names X lm rm Hn Hg Hl Hr a _ Ha He).
Qed.

Lemma prediction_error_is_shown_witness :
  exists calls : list event,
    (calls = [Predict Linear [("Voltage", VFloat 240.0)]] \/
     calls = [Predict Linear [("Voltage", VFloat 240.0)];
              Predict Ridge [("Voltage", VFloat 240.0)]]) /\
    run default_inputs
      (loaded (constant_model 1.5) (rejecting_model "X has 1 features")
         ["Voltage"]) =
    (Ret tt,
     after (loaded (constant_model 1.5) (rejecting_model "X has 1 features")
              ["Voltage"])
       (Display Title :: calls ++
        [Display (Error "Prediction error: " (ValueError "X has 1 features"));
         Display Disclaimer])).
Proof.
  apply (prediction_error_is_shown default_inputs
           (loaded (constant_model 1.5) (rejecting_model "X has 1 features")
              ["Voltage"])
           ["Voltage"] [("Voltage", VFloat 240.0)]
           (constant_model 1.5) (rejecting_model "X has 1 features")
           "X has 1 features").
  - reflexivity.
  - reflexivity.
  - reflexivity.
  - reflexivity.
  - right. split; [exists 1.5%float|]; reflexivity.
Defined.

(** C7.  A predictor that answers the constant [c] for every row makes
    the predict operation return exactly [c], whatever the row. *)
Theorem constant_predictor (m : model_id) (p : Predictor) (c : float)
  (X : DataFrame) (w : World) :
  attr m (self w) = Some p ->
  (forall X', exists rest, predict p X' = inr (c :: rest)) ->
  predict_item0 p X = inr c /\
  model_predict m X w = (Ret c, after w [Predict m X]).
Proof.
  intros Hp Hc.
  assert (H0 : predict_item0 p X = inr c).
  { unfold predict_item0. destruct (Hc X) as [rest ->]. reflexivity. }
  split; [exact H0|].
  now rewrite (model_predict_eq m X w p Hp), H0.
Qed.

Lemma constant_predictor_witness :
  predict_item0 (constant_model 2.5) (input_data default_inputs)
  = inr 2.5%float /\
  model_predict Ridge (input_data default_inputs)
    (loaded (constant_model 1.5) (constant_model 2.5) []) =
  (Ret 2.5%float,
   after (loaded (constant_model 1.5) (constant_model 2.5) [])
     [Predict Ridge (input_data default_inputs)]).
Proof.
  apply (constant_predictor Ridge (constant_model 2.5) 2.5%float
           (input_data default_inputs)
           (loaded (constant_model 1.5) (constant_model 2.5) [])).
  - reflexivity.
  - intros X'. exists []. reflexivity.
Defined.

(** C8.  Two runs with the same inputs on app objects holding the same
    predictors and feature names end the same way and add the same events
    (the aligned row handed to each model, the two estimates shown),
    whatever was on the page before; neither changes the app object. *)
Theorem run_is_deterministic (i : Inputs) (w1 w2 : World) :
  self w1 = self w2 ->
  exists (r : result unit) (ev : list event),
    run i w1 = (r, after w1 ev) /\ run i w2 = (r, after w2 ev).
Proof.
  destruct w1 as [s t1], w2 as [s2 t2]. cbn. intros <-.
  destruct (reads_only_run i s) as (r & ev & Hr).
  exists r, ev. split; apply Hr.
Qed.

Lemma run_is_deterministic_witness :
  exists (r : result unit) (ev : list event),
    run default_inputs
      (loaded (constant_model 1.5) (constant_model 2.5) ["Voltage"]) =
    (r, after (loaded (constant_model 1.5) (constant_model 2.5) ["Voltage"])
          ev) /\
    run default_inputs
      (after (loaded (constant_model 1.5) (constant_model 2.5) ["Voltage"])
         [Display Title; Display Disclaimer]) =
    (r, after
          (after (loaded (constant_model 1.5) (constant_model 2.5)
                    ["Voltage"])
             [Display Title; Display Disclaimer]) ev).
Proof.
  apply (run_is_deterministic default_inputs
           (loaded (constant_model 1.5) (constant_model 2.5) ["Voltage"])
           (after (loaded (constant_model 1.5) (constant_model 2.5)
                     ["Voltage"])
              [Display Title; Display Disclaimer])).
  reflexivity.
Defined.

(** C9, as the code has it.  Within one run of the script, once
    [load_resources] has assigned the two predictors and the feature names
    from the artifact files, whatever the attributes held before, they stay
    as they are: [run] only reads them, and at the end of the script the app
    object holds what [__init__] left. *)
Theorem loaded_models_kept_within_script_run (disk : Disk) (i : Inputs)
  (w : World) (lm rm : Predictor) (names : list string) :
  linear_model_pkl disk = inr lm ->
  ridge_model_pkl disk = inr rm ->
  feature_names_pkl disk = inr names ->
  self (snd (__init__ disk w)) = mkSelf (Some lm) (Some rm) (Some names) /\
  self (snd (main disk i w)) = mkSelf (Some lm) (Some rm) (Some names) /\
  (forall (j : Inputs) (w' : World), self (snd (run j w')) = self w') /\
  (forall (d : Disk) (j : Inputs) (w' : World),
     self (snd (main d j w')) = self (snd (__init__ d w'))).
Proof.
  intros Hl Hr Hn.
  pose proof (init_loads disk w lm rm names Hl Hr Hn) as Hinit.
  split; [now rewrite Hinit|].
  split; [rewrite (main_init_returns disk i w _ Hinit); apply run_self|].
  split; [exact run_self|].
  intros d j w'. unfold main, bind.
  destruct (__init__ d w') as [[[] | | e] w'']; cbn;
    [apply run_self | reflexivity | reflexivity].
Qed.

Lemma loaded_models_kept_within_script_run_witness :
  self (snd (__init__
               (mkDisk (inr (constant_model 1.5)) (inr (constant_model 2.5))
                  (inr ["Voltage"])) fresh)) =
  mkSelf (Some (constant_model 1.5)) (Some (constant_model 2.5))
    (Some ["Voltage"]) /\
  self (snd (main
               (mkDisk (inr (constant_model 1.5)) (inr (constant_model 2.5))
                  (inr ["Voltage"])) default_inputs fresh)) =
  mkSelf (Some (constant_model 1.5)) (Some (constant_model 2.5))
    (Some ["Voltage"]) /\
  (forall (j : Inputs) (w' : World), self (snd (run j w')) = self w') /\
  (forall (d : Disk) (j : Inputs) (w' : World),
     self (snd (main d j w')) = self (snd (__init__ d w'))).
Proof.
  apply (loaded_models_kept_within_script_run
           (mkDisk (inr (constant_model 1.5)) (inr (constant_model 2.5))
              (inr ["Voltage"]))
           default_inputs fresh (constant_model 1.5) (constant_model 2.5)
           ["Voltage"]); reflexivity.
Defined.

(** C9, as the claim has it, fails: the attributes are not held for the
    life of the process.  Every interaction runs the script again, and its
    [load_resources] assigns all three attributes from the files as they
    are then: after a script run on files with feature names Voltage, a
    second run on files with feature names Hour leaves Hour in the app
    object, on a new object as on the one of the first run. *)
Lemma script_run_assigns_models_again :
  let first :=
    mkDisk (inr (constant_model 1.5)) (inr (constant_model 2.5))
      (inr ["Voltage"]) in
  let second :=
    mkDisk (inr (constant_model 1.5)) (inr (constant_model 2.5))
      (inr ["Hour"]) in
  let w1 := snd (main first default_inputs fresh) in
  feature_names (self w1) = Some ["Voltage"] /\
  feature_names (self (snd (main second default_inputs fresh))) =
  Some ["Hour"] /\
  feature_names (self (snd (main second default_inputs w1))) =
  Some ["Hour"] /\
  self (snd (main second default_inputs w1)) <> self w1.
Proof.
  cbn zeta. repeat split; try reflexivity.
  intros H. apply (f_equal feature_names) in H. discriminate H.
Qed.

Ltac not_shown :=
  let H := fresh "H" in
  intros H; cbn in H;
  repeat (destruct H as [H | H]; [discriminate H|]); exact H.

(** C10.  When the linear or the ridge prediction fails, [run] shows no
    prediction card at all, so never one estimate without the other: a
    [ValueError] is answered with the "Prediction error" message, and any
    other exception leaves [run] with nothing shown in place of the
    estimates. *)
Theorem display_is_all_or_nothing (i : Inputs) (w : World)
  (names : list string) (X : DataFrame) (lm rm : Predictor) :
  feature_names (self w) = Some names ->
  DataFrame_getitem (input_data i) names = inr X ->
  linear_model (self w) = Some lm ->
  ridge_model (self w) = Some rm ->
  (exists e, predict_item0 lm X = inl e) \/
  (exists e, predict_item0 rm X = inl e) ->
  exists (r : result unit) (ev : list event) (e : exc),
    run i w = (r, after w ev) /\
    (forall a b, ~ In (Display (PredictionCard a b)) ev) /\
    (predict_item0 lm X = inl e \/ predict_item0 rm X = inl e) /\
    if is_ValueError e
    then r = Ret tt /\ In (Display (Error "Prediction error: " e)) ev
    else r = Raise e /\ forall msg e', ~ In (Display (Error msg e')) ev.
Proof.
  intros Hn Hg Hl Hr Hfail.
  destruct (predict_item0 lm X) as [e | a] eqn:Ea.
  - pose proof (run_linear_raises i w names X lm Hn Hg Hl e Ea) as Hrun.
    destruct (is_ValueError e) eqn:Ev.
    + do 2 eexists. exists e. split; [exact Hrun|].
      rewrite Ev. repeat split; [intros a b; not_shown | now left |].
      cbn. tauto.
    + do 2 eexists. exists e. split; [exact Hrun|].
      rewrite Ev. repeat split; [intros a b; not_shown | now left |].
      intros msg e'. not_shown.
  - destruct Hfail as [[e He] | [e He]]; [discriminate He|].
    pose proof (run_ridge_raises i w names X lm rm Hn Hg Hl Hr a e Ea He)
      as Hrun.
    destruct (is_ValueError e) eqn:Ev.
    + do 2 eexists. exists e. split; [exact Hrun|].
      rewrite Ev. repeat split; [intros a' b; not_shown | now right |].
      cbn. tauto.
    + do 2 eexists. exists e. split; [exact Hrun|].
      rewrite Ev. repeat split; [intros a' b; not_shown | now right |].
      intros msg e'. not_shown.
Qed.

Lemma display_is_all_or_nothing_witness :
  exists (r : result unit) (ev : list event) (e : exc),
    run default_inputs
      (loaded (constant_model 1.5) (rejecting_model "X has 1 features")
         ["Voltage"]) =
    (r, after (loaded (constant_model 1.5)
                 (rejecting_model "X has 1 features") ["Voltage"]) ev) /\
    (forall a b, ~ In (Display (PredictionCard a b)) ev) /\
    (predict_item0 (constant_model 1.5) [("Voltage", VFloat 240.0)] = inl e \/
     predict_item0 (rejecting_model "X has 1 features")
       [("Voltage", VFloat 240.0)] = inl e) /\
    if is_ValueError e
    then r = Ret tt /\ In (Display (Error "Prediction error: " e)) ev
    else r = Raise e /\ forall msg e', ~ In (Display (Error msg e')) ev.
Proof.
  apply (display_is_all_or_nothing default_inputs
           (loaded (constant_model 1.5) (rejecting_model "X has 1 features")
              ["Voltage"])
           ["Voltage"] [("Voltage", VFloat 240.0)]
           (constant_model 1.5) (rejecting_model "X has 1 features")).
  - reflexivity.
  - reflexivity.
  - reflexivity.
  - reflexivity.
  - right. exists (ValueError "X has 1 features"). reflexivity.
Defined.

(** * Further properties of the script *)

(** ** Selecting the models' columns *)

Lemma cell_In_columns (df : DataFrame) (n : string) :
  is_Some (cell df n) -> In n (columns df).
Proof.
  induction df as [| [c v] rest IH]; cbn.
  - intros [v Hv]. discriminate Hv.
  - destruct (String.eqb_spec c n) as [-> | Hne]; [now left|].
    intros H. right. now apply IH.
Qed.

Lemma cell_None_iff (df : DataFrame) (n : string) :
  cell df n = None <-> ~ In n (columns df).
Proof.
  split.
  - intros Hn Hin. apply cell_is_Some in Hin as [v Hv]. congruence.
  - intros Hnot. destruct (cell df n) as [v|] eqn:E; [|reflexivity].
    exfalso. apply Hnot, cell_In_columns. rewrite E. eauto.
Qed.

Lemma cell_of_element (df : DataFrame) (n : string) (v : value) :
  NoDup (columns df) -> In (n, v) df -> cell df n = Some v.
Proof.
  induction df as [| [c u] rest IH]; cbn; [tauto|].
  intros Hnd [Heq | Hin].
  - injection Heq as -> ->. now rewrite String.eqb_refl.
  - apply NoDup_cons in Hnd as [Hc Hnd].
    destruct (String.eqb_spec c n) as [-> | Hne]; [|now apply IH].
    exfalso. apply Hc. apply list_elem_of_In.
    change n with (fst (n, v)). now apply in_map.
Qed.

Lemma getitem_raises_KeyError_aux (df : DataFrame) (names : list string)
  (e : exc) :
  DataFrame_getitem df names = inl e -> exists ms, e = KeyError ms.
Proof.
  unfold DataFrame_getitem. destruct (mapM _ names); [discriminate|].
  intros [= <-]. eauto.
Qed.

(** X1.  Selecting [names] from a data frame succeeds exactly when every
    one of the names is a column of the frame. *)
Theorem getitem_succeeds_iff (df : DataFrame) (names : list string) :
  (exists X, DataFrame_getitem df names = inr X) <->
  (forall n, In n names -> In n (columns df)).
Proof.
  split.
  - intros [X HX] n Hn. apply getitem_inr in HX.
    apply list_elem_of_In, list_elem_of_lookup_1 in Hn as [k Hk].
    destruct (Forall2_lookup_l _ _ _ _ _ HX Hk) as (c & _ & v & Hv & _).
    apply cell_In_columns. rewrite Hv. eauto.
  - intros Hall. apply getitem_total, Forall_forall.
    intros n Hn. apply cell_is_Some, Hall. now apply list_elem_of_In.
Qed.

(** X2.  When selecting [names] fails, the exception is a [KeyError]; it
    carries at least one label, and its labels are exactly the requested
    names that are not columns of the frame. *)
Theorem getitem_raises_KeyError (df : DataFrame) (names : list string)
  (e : exc) :
  DataFrame_getitem df names = inl e ->
  exists ms : list string,
    e = KeyError ms /\ ms <> [] /\
    forall n, In n ms <-> In n names /\ ~ In n (columns df).
Proof.
  unfold DataFrame_getitem.
  destruct (mapM _ names) as [sel|] eqn:E; [discriminate|].
  intros [= <-]. exists (missing_labels df names).
  assert (Hspec : forall n, In n (missing_labels df names) <->
                            In n names /\ ~ In n (columns df)).
  { intros n. rewrite missing_labels_spec. now rewrite cell_None_iff. }
  split; [reflexivity|]. split; [|exact Hspec].
  apply mapM_None_1, Exists_exists in E as (n & Hin & Hn).
  destruct (cell df n) as [v|] eqn:Hc; [discriminate Hn|].
  intros Hnil.
  assert (Hm : In n (missing_labels df names)).
  { apply missing_labels_spec. split; [now apply list_elem_of_In | exact Hc]. }
  rewrite Hnil in Hm. exact Hm.
Qed.

Lemma getitem_raises_KeyError_witness :
  exists ms : list string,
    KeyError ["Temperature"; "Humidity"] = KeyError ms /\ ms <> [] /\
    forall n, In n ms <->
      In n ["Temperature"; "Voltage"; "Humidity"] /\
      ~ In n (columns (input_data default_inputs)).
Proof.
  apply (getitem_raises_KeyError (input_data default_inputs)
           ["Temperature"; "Voltage"; "Humidity"]
           (KeyError ["Temperature"; "Humidity"])).
  reflexivity.
Defined.

(** X3.  In the selected data frame every requested column has the value it
    has in the frame it was selected from, and no other column is left. *)
Theorem getitem_keeps_cells (df : DataFrame) (names : list string)
  (X : DataFrame) :
  DataFrame_getitem df names = inr X ->
  forall n, (In n names -> cell X n = cell df n) /\
            (~ In n names -> cell X n = None).
Proof.
  intros HX n. apply getitem_inr in HX.
  induction HX as [| n0 c names' X' (v & Hv & ->) _ [IHin IHout]]; cbn.
  - split; [tauto | reflexivity].
  - destruct (String.eqb_spec n0 n) as [-> | Hne].
    + split; [intros _; now rewrite Hv |].
      intros Hnot. exfalso. apply Hnot. now left.
    + split.
      * intros [Heq | Hin]; [congruence | now apply IHin].
      * intros Hnot. apply IHout. intros Hin. apply Hnot. now right.
Qed.

Lemma getitem_keeps_cells_witness :
  (In "Hour" ["Weekday"; "Hour"] ->
   cell [("Weekday", VInt 3); ("Hour", VInt 12)] "Hour" =
   cell (input_data default_inputs) "Hour") /\
  (~ In "Hour" ["Weekday"; "Hour"] ->
   cell [("Weekday", VInt 3); ("Hour", VInt 12)] "Hour" = None).
Proof.
  apply (getitem_keeps_cells (input_data default_inputs) ["Weekday"; "Hour"]
           [("Weekday", VInt 3); ("Hour", VInt 12)]).
  reflexivity.
Defined.

(** X4.  A data frame whose column names are all different is returned
    unchanged when its own columns are selected, in their order: models
    trained on the builder's own column order get the built record as it
    is. *)
Theorem getitem_own_columns (df : DataFrame) :
  NoDup (columns df) -> DataFrame_getitem df (columns df) = inr df.
Proof.
  intros Hnd. unfold DataFrame_getitem.
  assert (E : mapM (fun n => pair n <$> cell df n) (columns df) = Some df).
  { apply mapM_Some_2. unfold columns. apply Forall2_fmap_l.
    apply Forall_Forall2_diag, Forall_forall. intros [n v] Hin. cbn.
    apply list_elem_of_In in Hin.
    now rewrite (cell_of_element df n v Hnd Hin). }
  now rewrite E.
Qed.

(** The fourteen column names of the built record are all different. *)
Lemma input_data_columns_NoDup (i : Inputs) : NoDup (columns (input_data i)).
Proof.
  cbn.
  repeat (constructor;
    [ let H := fresh in
      intros H; apply list_elem_of_In in H; cbn in H;
      repeat (destruct H as [H | H]; [discriminate H|]); exact H |]).
  constructor.
Qed.

Lemma getitem_own_columns_witness :
  DataFrame_getitem (input_data default_inputs)
    (columns (input_data default_inputs)) = inr (input_data default_inputs).
Proof.
  apply (getitem_own_columns (input_data default_inputs)).
  apply input_data_columns_NoDup.
Defined.

(** ** Every way through [run] *)

(** [run] follows one of the paths of [run_path]. *)
Lemma run_follows_path (i : Inputs) (w : World) :
  exists (r : result unit) (ev : list event),
    run i w = (r, after w ev) /\ run_path (self w) i r ev.
Proof.
  destruct (feature_names (self w)) as [names|] eqn:Hn.
  2: { do 2 eexists. split; [|now apply path_no_feature_names].
       script_unfold. now rewrite Hn. }
  destruct (DataFrame_getitem (input_data i) names) as [e | X] eqn:Hg.
  { destruct (getitem_raises_KeyError_aux _ _ _ Hg) as [ms ->].
    do 2 eexists. split; [exact (run_KeyError _ _ _ _ Hn Hg)|].
    eapply path_missing_features; eassumption. }
  destruct (linear_model (self w)) as [lm|] eqn:Hl.
  2: { do 2 eexists. split; [|eapply path_no_linear_model; eassumption].
       script_unfold. rewrite Hn, Hg. cbn. now rewrite Hl. }
  destruct (predict_item0 lm X) as [e | a] eqn:Ea.
  { pose proof (run_linear_raises i w names X lm Hn Hg Hl e Ea) as Hrun.
    destruct (is_ValueError e) eqn:Ev; do 2 eexists;
      (split; [exact Hrun|]);
      [eapply path_linear_rejects | eapply path_linear_raises]; eassumption. }
  destruct (ridge_model (self w)) as [rm|] eqn:Hr.
  2: { do 2 eexists. split; [|eapply path_no_ridge_model; eassumption].
       script_unfold. rewrite Hn, Hg. cbn. rewrite Hl, Ea. cbn.
       rewrite Hr. cbn. now rewrite <- !app_assoc. }
  destruct (predict_item0 rm X) as [e | b] eqn:Eb.
  - pose proof (run_ridge_raises i w names X lm rm Hn Hg Hl Hr a e Ea Eb)
      as Hrun.
    destruct (is_ValueError e) eqn:Ev; do 2 eexists;
      (split; [exact Hrun|]);
      [eapply path_ridge_rejects | eapply path_ridge_raises]; eassumption.
  - do 2 eexists.
    split; [exact (run_predicts i w names X lm rm Hn Hg Hl Hr a b Ea Eb)|].
    eapply path_predictions; eassumption.
Qed.

(** What [run] returns and adds is fixed by the world it starts from. *)
Lemma run_result_unique (i : Inputs) (w : World) (r r' : result unit)
  (ev ev' : list event) :
  run i w = (r, after w ev) -> run i w = (r', after w ev') ->
  r = r' /\ ev = ev'.
Proof.
  intros H H'. rewrite H in H'. injection H' as -> Ht.
  split; [reflexivity|]. now apply app_inv_head in Ht.
Qed.

Lemma getitem_inl_missing (df : DataFrame) (names : list string) (e : exc) :
  DataFrame_getitem df names = inl e ->
  exists n, In n names /\ cell df n = None.
Proof.
  unfold DataFrame_getitem.
  destruct (mapM _ names) as [sel|] eqn:E; [discriminate|]. intros _.
  apply mapM_None_1, Exists_exists in E as (n & Hin & Hn).
  exists n. split; [now apply list_elem_of_In|].
  destruct (cell df n); [discriminate Hn | reflexivity].
Qed.

Ltac not_shown_or_found :=
  let H := fresh "H" in
  intros H; cbn in H;
  repeat (destruct H as [H | H];
          [first [discriminate H | injection H as <- <-; eauto 12] |]);
  contradiction.

(** X5.  [run] is stopped by [st.stop()] exactly when the app object holds
    feature names of which one is not a column of the built record; nothing
    else stops it. *)
Theorem run_stops_iff_feature_missing (i : Inputs) (w : World) :
  fst (run i w) = Stop <->
  exists (names : list string) (n : string),
    feature_names (self w) = Some names /\ In n names /\
    cell (input_data i) n = None.
Proof.
  split.
  - destruct (run_follows_path i w) as (r & ev & Hrun & Hp).
    rewrite Hrun. cbn [fst]. intros ->.
    inversion Hp as [ | names e Hn Hg | | | | | | | ]; subst.
    destruct (getitem_inl_missing _ _ _ Hg) as (n & Hin & Hc).
    now exists names, n.
  - intros (names & n & Hn & Hin & Hc).
    now rewrite (run_KeyError i w names _ Hn (getitem_KeyError _ _ _ Hin Hc)).
Qed.

(** X7.  [run] shows a prediction card with [a] and [b] exactly when the
    columns were selected and, on the selected row, the linear model
    predicted [a] and the ridge model predicted [b]. *)
Theorem card_shows_both_predictions (i : Inputs) (w : World) :
  exists (r : result unit) (ev : list event),
    run i w = (r, after w ev) /\
    forall a b : float,
      In (Display (PredictionCard a b)) ev <->
      exists (names : list string) (X : DataFrame) (lm rm : Predictor),
        feature_names (self w) = Some names /\
        DataFrame_getitem (input_data i) names = inr X /\
        linear_model (self w) = Some lm /\
        ridge_model (self w) = Some rm /\
        predict_item0 lm X = inr a /\
        predict_item0 rm X = inr b.
Proof.
  destruct (run_follows_path i w) as (r & ev & Hrun & Hp).
  exists r, ev. split; [exact Hrun|]. intros a b.
  inversion Hp; subst; (split; [not_shown_or_found | ]);
    intros (names' & X' & lm' & rm' & Hn' & Hg' & Hl' & Hr' & Ha' & Hb');
    try (exfalso; congruence).
  cbn. do 3 right. left. congruence.
Qed.

(** X8.  In one [run] each model is called at most once, the ridge model
    only after the linear model, and only on the row selected from the built
    record with the loaded feature names, the same row for both. *)
Theorem models_called_once_in_order (i : Inputs) (w : World) :
  exists (r : result unit) (ev : list event),
    run i w = (r, after w ev) /\
    (List.filter is_Predict ev = [] \/
     exists (names : list string) (X : DataFrame),
       feature_names (self w) = Some names /\
       DataFrame_getitem (input_data i) names = inr X /\
       (List.filter is_Predict ev = [Predict Linear X] \/
        List.filter is_Predict ev = [Predict Linear X; Predict Ridge X])).
Proof.
  destruct (run_follows_path i w) as (r & ev & Hrun & Hp).
  exists r, ev. split; [exact Hrun|].
  inversion Hp; subst; cbn [List.filter is_Predict];
    first [ now left | right; eauto 10 ].
Qed.

(** X9.  Every [run] puts the title on the page first.  It ends with the
    disclaimer exactly when it returns normally.  It answers with one
    element, the prediction card or an error message, unless an exception
    leaves it, and then with none. *)
Theorem page_of_run (i : Inputs) (w : World) :
  exists (r : result unit) (ev : list event),
    run i w = (r, after w ev) /\
    head ev = Some (Display Title) /\
    (r = Ret tt <-> last ev = Some (Display Disclaimer)) /\
    length (List.filter is_answer ev) =
    match r with Raise _ => 0%nat | _ => 1%nat end.
Proof.
  destruct (run_follows_path i w) as (r & ev & Hrun & Hp).
  exists r, ev. split; [exact Hrun|].
  inversion Hp; subst; cbn; (split; [reflexivity|]);
    (split; [split; congruence | reflexivity]).
Qed.

(** X10.  When the three artifacts load, every expected name is a column
    and both models answer, the script shows, in this order, the page
    set-up, the toast, the title and the card with the linear and the ridge
    estimate, then the disclaimer; each model was called once on the
    selected row, and the app object holds the three artifacts. *)
Theorem main_shows_predictions (disk : Disk) (i : Inputs) (w : World)
  (lm rm : Predictor) (names : list string) (X : DataFrame) (a b : float) :
  linear_model_pkl disk = inr lm ->
  ridge_model_pkl disk = inr rm ->
  feature_names_pkl disk = inr names ->
  DataFrame_getitem (input_data i) names = inr X ->
  predict_item0 lm X = inr a ->
  predict_item0 rm X = inr b ->
  main disk i w =
  (Ret tt,
   mkWorld (mkSelf (Some lm) (Some rm) (Some names))
     (trace w ++
      [Display PageConfig; Display CustomCss; Display SidebarHeader;
       Display (Toast "Models loaded successfully!"); Display Title;
       Predict Linear X; Predict Ridge X;
       Display (PredictionCard a b); Display Disclaimer])).
Proof.
  intros Hl Hr Hn Hg Ha Hb.
  rewrite (main_init_returns disk i w _
             (init_loads disk w lm rm names Hl Hr Hn)).
  match goal with
  | |- run i ?w' = _ =>
      rewrite (run_predicts i w' names X lm rm eq_refl Hg eq_refl eq_refl
                 a b Ha Hb)
  end.
  unfold after. cbn [self trace]. now rewrite <- app_assoc.
Qed.

Lemma main_shows_predictions_witness :
  main (mkDisk (inr (constant_model 1.5)) (inr (constant_model 2.5))
          (inr ["Hour"; "Voltage"]))
    default_inputs fresh =
  (Ret tt,
   mkWorld
     (mkSelf (Some (constant_model 1.5)) (Some (constant_model 2.5))
        (Some ["Hour"; "Voltage"]))
     (trace fresh ++
      [Display PageConfig; Display CustomCss; Display SidebarHeader;
       Display (Toast "Models loaded successfully!"); Display Title;
       Predict Linear [("Hour", VInt 12); ("Voltage", VFloat 240.0)];
       Predict Ridge [("Hour", VInt 12); ("Voltage", VFloat 240.0)];
       Display (PredictionCard 1.5 2.5); Display Disclaimer])).
Proof.
  apply (main_shows_predictions
           (mkDisk (inr (constant_model 1.5)) (inr (constant_model 2.5))
              (inr ["Hour"; "Voltage"]))
           default_inputs fresh (constant_model 1.5) (constant_model 2.5)
           ["Hour"; "Voltage"]
           [("Hour", VInt 12); ("Voltage", VFloat 240.0)]
           1.5%float 2.5%float); reflexivity.
Defined.

(** X11.  Start-up never lets an exception out: [__init__] returns when
    the three artifacts load, and is stopped by [st.stop()] when one of the
    loads raises, whatever the exception. *)
Theorem startup_returns_or_stops (disk : Disk) (w : World) :
  (fst (__init__ disk w) = Ret tt <->
   exists lm rm names,
     linear_model_pkl disk = inr lm /\ ridge_model_pkl disk = inr rm /\
     feature_names_pkl disk = inr names) /\
  (fst (__init__ disk w) = Stop <->
   exists e,
     linear_model_pkl disk = inl e \/ ridge_model_pkl disk = inl e \/
     feature_names_pkl disk = inl e) /\
  forall e, fst (__init__ disk w) <> Raise e.
Proof.
  destruct (first_failure disk) as [e|] eqn:Hf.
  - destruct (init_fails disk w e Hf) as [s Hs]. rewrite Hs. cbn [fst].
    unfold first_failure in Hf.
    repeat split; try discriminate.
    + intros (lm & rm & names & Hl & Hr & Hn). rewrite Hl, Hr, Hn in Hf.
      discriminate Hf.
    + intros _.
      destruct (linear_model_pkl disk); [eauto|].
      destruct (ridge_model_pkl disk); [eauto|].
      destruct (feature_names_pkl disk); [eauto | discriminate Hf].
  - unfold first_failure in Hf.
    destruct (linear_model_pkl disk) as [? | lm] eqn:Hl; [discriminate Hf|].
    destruct (ridge_model_pkl disk) as [? | rm] eqn:Hr; [discriminate Hf|].
    destruct (feature_names_pkl disk) as [? | names] eqn:Hn;
      [discriminate Hf|].
    rewrite (init_loads disk w lm rm names Hl Hr Hn). cbn [fst].
    repeat split; try discriminate; eauto 6.
    intros [e [He | [He | He]]]; discriminate He.
Qed.

(** X12.  For a date the calendar has, the Weekday feature of the record
    built for the following day is the Weekday feature of the day plus one,
    modulo 7, whatever the readings and the times. *)
Theorem weekday_feature_next_day (i j : Inputs) :
  Calendar.valid_date (date i) ->
  date j = Calendar.tomorrow (date i) ->
  exists d : Z,
    cell (input_data i) "Weekday" = Some (VInt d) /\
    cell (input_data j) "Weekday" = Some (VInt ((d + 1) mod 7)).
Proof.
  intros Hv Hj.
  exists (Calendar.weekday (Calendar.combine (date i) (time i))).
  split; [reflexivity|].
  change (cell (input_data j) "Weekday")
    with (Some (VInt (Calendar.weekday (Calendar.combine (date j) (time j))))).
  rewrite Hj. do 2 f_equal.
  rewrite <- (weekday_tomorrow (date i) (time i) Hv).
  reflexivity.
Qed.

Lemma weekday_feature_next_day_witness :
  exists d : Z,
    cell (input_data default_inputs) "Weekday" = Some (VInt d) /\
    cell (input_data
            (mkInputs 230.0 1.0 0.0 0.0 0.0 (Calendar.mkdate 2024 11 29)
               (Calendar.mktime 8 30 0))) "Weekday" =
    Some (VInt ((d + 1) mod 7)).
Proof.
  apply (weekday_feature_next_day default_inputs
           (mkInputs 230.0 1.0 0.0 0.0 0.0 (Calendar.mkdate 2024 11 29)
              (Calendar.mktime 8 30 0))).
  - cbv. repeat split; discriminate.
  - reflexivity.
Defined.
